(** * Validation actions of great_expectations

    A shallow embedding of
    [great_expectations/validation_operators/actions.py]: the base class
    [ValidationAction], its six subclasses, and the properties of their
    constructors and of [run] / [_run].

    Python objects become records, [None]-able arguments become [option],
    and every method runs in a small monad that threads the contents of the
    stores, records each call that leaves the module (logger, [print],
    [warnings], renderer, webhook, store, Data Context) in a trace, and
    either returns a value or raises. *)

From stdpp Require Import base option list strings gmap.

Local Open Scope string_scope.
Local Open Scope list_scope.

(** ** Python values *)

(** The [TypeError]s of this module: the one the guards of [_run] raise, with
    the name the message gives to the parameter and the type it found, and the
    one the interpreter raises itself when a call passes keyword arguments
    that the callee cannot bind. *)
Inductive TypeErrorReason :=
| NotValidationResultIdentifier (param : string) (found_type : string)
| KeywordArgumentsRejected.

Inductive Exn :=
| TypeError (reason : TypeErrorReason)
| KeyError (key : string)
| DataContextError (msg : string)
| CollaboratorError (name : string).

(** What a method hands back: [None], a string, or a class object (the base
    [_run] returns the class [NotImplementedError]). *)
Inductive Value :=
| VNone
| VStr (s : string)
| VClass (name : string).

Inductive Outcome (A : Type) :=
| Returned (v : A)
| Raised (e : Exn).
Arguments Returned {A} v.
Arguments Raised {A} e.

(** The text of the [TypeError] of the guards,
    ["<param> must be of type ValidationResultIdentifier, not {0}".format(type(x))]. *)
Definition type_error_message (r : TypeErrorReason) : option string :=
  match r with
  | NotValidationResultIdentifier param found_type =>
      Some (param +:+ " must be of type ValidationResultIdentifier, not " +:+ found_type)
  | KeywordArgumentsRejected => None
  end.

(** ** Data model *)

(** A validation result: the [success] flag the notification policy reads and
    the rest of the result, which no action looks into. *)
Record ValidationResult := {
  success : bool;
  results : string;
}.

(** The key of a stored validation result, opaque to the actions. *)
Record ValidationResultIdentifier := { vri_key : string }.

(** What a caller may pass as [validation_result_suite_identifier]: an
    instance of [ValidationResultIdentifier], or any other object, of which
    the guards only print the type. *)
Inductive Identifier :=
| IsValidationResultIdentifier (i : ValidationResultIdentifier)
| OtherObject (type_repr : string).

(** [isinstance(x, ValidationResultIdentifier)] *)
Definition isinstance_ValidationResultIdentifier (x : Identifier) : bool :=
  match x with
  | IsValidationResultIdentifier _ => true
  | OtherObject _ => false
  end.

(** [type(x)], as [format] prints it. *)
Definition type_of (x : Identifier) : string :=
  match x with
  | IsValidationResultIdentifier _ =>
      "<class 'great_expectations.data_context.types.resource_identifiers.ValidationResultIdentifier'>"
  | OtherObject type_repr => type_repr
  end.

(** A store object: a reference to its contents in the world, and whether its
    class derives from [MetricStore].  Two copies of one [Store] denote the same
    Python object: a write through one is read through the other. *)
Record Store := {
  store_ref : positive;
  isinstance_MetricStore : bool;
}.

(** The payload a renderer produces for Slack. *)
Record SlackQuery := { query_text : string }.

(** [requested_metrics]: suite name (or ["*"]) to metric name to
    metric-kwargs ids. *)
Definition RequestedMetrics : Type := list (string * list (string * list string)).

(** A renderer object: its [render] method returns a query or raises. *)
Record Renderer := {
  render : ValidationResult -> Outcome SlackQuery;
}.

(** The Data Context the actions are constructed with.  The registry, the
    default store names and the default evaluation parameter store are
    attributes; the three methods are the context's own and return or raise as
    the context decides. *)
Record DataContext := {
  stores : gmap string Store;
  validations_store_name : string;
  evaluation_parameter_store : Store;
  store_evaluation_parameters : ValidationResult -> Outcome Value;
  store_validation_result_metrics :
    RequestedMetrics -> ValidationResult -> string -> Outcome Value;
  build_data_docs :
    option (list string) -> list ValidationResultIdentifier -> Outcome Value;
}.

(** ** Effects *)

(** Every call that leaves the module. *)
Inductive Event :=
| LogDebug (msg : string)
| Print (msg : string)
| Warn (category msg : string)
| RenderCall (r : ValidationResult)
| SendSlackNotification (query : SlackQuery) (slack_webhook : string)
| StoreSet (target : Store) (key : ValidationResultIdentifier) (value : ValidationResult)
| StoreEvaluationParameters (r : ValidationResult)
| StoreValidationResultMetrics
    (requested_metrics : RequestedMetrics) (r : ValidationResult) (target_store_name : string)
| BuildDataDocs
    (site_names : option (list string))
    (resource_identifiers : list ValidationResultIdentifier).

(** The calls that reach a collaborator (a store, the renderer, the webhook,
    the Data Context); logging, printing and warning do not. *)
Definition touches_collaborator (e : Event) : bool :=
  match e with
  | LogDebug _ | Print _ | Warn _ _ => false
  | _ => true
  end.

Definition is_render_or_send (e : Event) : bool :=
  match e with
  | RenderCall _ | SendSlackNotification _ _ => true
  | _ => false
  end.

Definition is_store_set (e : Event) : bool :=
  match e with
  | StoreSet _ _ _ => true
  | _ => false
  end.

(** The world: what each store object holds, and the calls made so far, oldest
    first.  A store that was never written to holds nothing. *)
Record World := {
  heap : gmap positive (gmap string ValidationResult);
  trace : list Event;
}.

Definition M (A : Type) : Type := World -> Outcome A * World.

Global Instance M_ret : MRet M := fun A (v : A) w => (Returned v, w).

Global Instance M_bind : MBind M := fun A B (k : A -> M B) (m : M A) w =>
  match m w with
  | (Returned v, w') => k v w'
  | (Raised e, w') => (Raised e, w')
  end.

Definition raise {A} (e : Exn) : M A := fun w => (Raised e, w).

(** Record a call. *)
Definition emit (e : Event) : M unit :=
  fun w => (Returned tt, {| heap := heap w; trace := trace w ++ [e] |}).

(** Turn the outcome of a collaborator into an outcome of the caller. *)
Definition lift {A} (o : Outcome A) : M A := fun w => (o, w).

(** The calls a computation adds to the trace of the world it starts in. *)
Definition calls {A} (m : M A) (w : World) : list Event :=
  drop (length (trace w)) (trace (m w).2).

(** *** The store *)

(** Modelled from the spec: the store classes are not part of this module.
    What a store object holds, by the key of the identifier; a store that was
    never written to holds nothing. *)
Definition contents (s : Store) (w : World) : gmap string ValidationResult :=
  default ∅ (heap w !! store_ref s).

(** Modelled from the spec: the write of [set(identifier, value)], which has
    upsert semantics: it overwrites any prior value at that identifier. *)
Definition upsert (s : Store) (key : ValidationResultIdentifier)
    (value : ValidationResult) : M unit :=
  fun w =>
    (Returned tt,
     {| heap := <[store_ref s := <[vri_key key := value]> (contents s w)]> (heap w);
        trace := trace w |}).

(** Modelled from the spec: [store.set(identifier, value)] of the store
    capability, a call to a collaborator that writes the pair. *)
Definition Store_set (s : Store) (key : ValidationResultIdentifier)
    (value : ValidationResult) : M Value :=
  emit (StoreSet s key value) ;;
  upsert s key value ;;
  mret VNone.

(** Modelled from the spec: [store.get(identifier)] of the store capability;
    for a key that was never set there is no value to return. *)
Definition Store_get (s : Store) (key : ValidationResultIdentifier) (w : World)
    : option ValidationResult :=
  contents s w !! vri_key key.

(** *** The logger, [print] and [warnings] *)
Definition logger_debug (msg : string) : M unit := emit (LogDebug msg).
Definition print (msg : string) : M unit := emit (Print msg).
Definition warnings_warn (msg category : string) : M unit := emit (Warn category msg).

(** Truth value of an optional list of site names: [None] and [[]] are falsy. *)
Definition truthy (l : option (list string)) : bool :=
  match l with
  | None | Some [] => false
  | Some (_ :: _) => true
  end.

(** ** The actions *)

(** Keyword arguments passed on by [run]. *)
Definition Kwargs : Type := list (string * Value).

Module ValidationAction.
Record t := { data_context : DataContext }.

Definition __init__ (data_context : DataContext) : M t :=
  mret {| data_context := data_context |}.

Definition _run (self : t) (validation_result_suite : option ValidationResult)
    (validation_result_suite_identifier : Identifier) (data_asset : Value) : M Value :=
  mret (VClass "NotImplementedError").
End ValidationAction.

Module NoOpAction.
Record t := { data_context : DataContext }.

Definition __init__ (data_context : DataContext) : M t :=
  mret {| data_context := data_context |}.

Definition _run (self : t) (validation_result_suite : option ValidationResult)
    (validation_result_suite_identifier : Identifier) (data_asset : Value) : M Value :=
  print "Happily doing nothing" ;;
  mret VNone.
End NoOpAction.

(** A call to a collaborator: recorded, then answered by the collaborator. *)
Definition call {A} (e : Event) (answer : Outcome A) : M A :=
  emit e ;; lift answer.

(** [d[key]] on a dict: the value, or [KeyError]. *)
Definition getitem (d : gmap string Store) (key : string) : M Store :=
  match d !! key with
  | Some v => mret v
  | None => raise (KeyError key)
  end.

(** [try: m except KeyError: handler] *)
Definition try_except_KeyError {A} (m : M A) (handler : M A) : M A :=
  fun w =>
    match m w with
    | (Raised (KeyError _), w') => handler w'
    | r => r
    end.

(** [send_slack_notification] of [validation_operators/util.py], which this
    module imports: it posts the query to the webhook and returns what the
    transport reports, or raises. *)
Class Transport := {
  send_slack_notification : SlackQuery -> string -> Outcome Value;
}.

(** [instantiate_class_from_config] of [data_context/util.py], which this
    module imports: from a config, a runtime environment and config defaults
    it builds the object the config names; it answers that object, or a falsy
    value, or raises. *)
Class Instantiation := {
  instantiate_class_from_config :
    gmap string string -> gmap string string -> gmap string string ->
    Outcome (option Renderer);
}.

(** What ends the constructor of the notification action early: its own
    [ClassInstantiationError], the [AssertionError] of its [assert], or an
    exception that passes through it. *)
Inductive ConstructionError :=
| ClassInstantiationError (module_name : string) (package_name : option string)
    (class_name : string)
| AssertionError (msg : string)
| Propagated (e : Exn).

Inductive Constructed (A : Type) :=
| Built (self : A)
| Failed (e : ConstructionError).
Arguments Built {A} self.
Arguments Failed {A} e.

(** Truth value of a webhook address: [None] and the empty string are falsy. *)
Definition truthy_webhook (slack_webhook : option string) : bool :=
  match slack_webhook with
  | None | Some "" => false
  | Some _ => true
  end.

Module SlackNotificationAction.
Record t := {
  data_context : DataContext;
  renderer : Renderer;
  slack_webhook : string;
  notify_on : string;
}.

(** The default of [notify_on]. *)
Definition default_notify_on : string := "all".

(** The constructor, with [assert] statements enabled, as they are unless the
    interpreter is asked to drop them. *)
Definition __init__ {instantiation : Instantiation} (data_context : DataContext)
    (renderer_config : gmap string string) (slack_webhook : option string)
    (notify_on : string) : Constructed t :=
  match instantiate_class_from_config renderer_config ∅ ∅ with
  | Raised e => Failed (Propagated e)
  | Returned self_renderer =>
      match renderer_config !! "module_name" with
      | None => Failed (Propagated (KeyError "module_name"))
      | Some module_name =>
          match self_renderer with
          | None =>
              match renderer_config !! "class_name" with
              | None => Failed (Propagated (KeyError "class_name"))
              | Some class_name =>
                  Failed (ClassInstantiationError module_name None class_name)
              end
          | Some self_renderer =>
              match slack_webhook with
              | Some slack_webhook =>
                  if truthy_webhook (Some slack_webhook) then
                    Built {| data_context := data_context;
                             renderer := self_renderer;
                             slack_webhook := slack_webhook;
                             notify_on := notify_on |}
                  else Failed (AssertionError "No Slack webhook found in action config.")
              | None => Failed (AssertionError "No Slack webhook found in action config.")
              end
          end
      end
  end.

Definition _run {transport : Transport} (self : t)
    (validation_result_suite : option ValidationResult)
    (validation_result_suite_identifier : Identifier) (data_asset : Value) : M Value :=
  logger_debug "SlackNotificationAction.run" ;;
  match validation_result_suite with
  | None => mret VNone
  | Some validation_result_suite =>
      match validation_result_suite_identifier with
      | OtherObject _ =>
          raise (TypeError (NotValidationResultIdentifier
                   "validation_result_suite_id"
                   (type_of validation_result_suite_identifier)))
      | IsValidationResultIdentifier _ =>
          let validation_success := success validation_result_suite in
          if String.eqb (notify_on self) "all"
             || String.eqb (notify_on self) "success"
                && validation_success
             || String.eqb (notify_on self) "failure"
                && negb validation_success
          then
            query ← call (RenderCall validation_result_suite)
                         (render (renderer self) validation_result_suite);
            call (SendSlackNotification query (slack_webhook self))
                 (send_slack_notification query (slack_webhook self))
          else mret VNone
      end
  end.
End SlackNotificationAction.

Module StoreValidationResultAction.
Record t := {
  data_context : DataContext;
  target_store : Store;
}.

Definition __init__ (data_context : DataContext)
    (target_store_name : option string) : M t :=
  target_store ←
    match target_store_name with
    | None => getitem (stores data_context) (validations_store_name data_context)
    | Some target_store_name => getitem (stores data_context) target_store_name
    end;
  mret {| data_context := data_context; target_store := target_store |}.

Definition _run (self : t) (validation_result_suite : option ValidationResult)
    (validation_result_suite_identifier : Identifier) (data_asset : Value) : M Value :=
  logger_debug "StoreValidationResultAction.run" ;;
  match validation_result_suite with
  | None => mret VNone
  | Some validation_result_suite =>
      match validation_result_suite_identifier with
      | OtherObject _ =>
          raise (TypeError (NotValidationResultIdentifier
                   "validation_result_id"
                   (type_of validation_result_suite_identifier)))
      | IsValidationResultIdentifier identifier =>
          Store_set (target_store self) identifier validation_result_suite ;;
          mret VNone
      end
  end.
End StoreValidationResultAction.

Module StoreEvaluationParametersAction.
Record t := {
  data_context : DataContext;
  target_store : Store;
}.

Definition __init__ (data_context : DataContext)
    (target_store_name : option string) : M t :=
  target_store ←
    match target_store_name with
    | None => mret (evaluation_parameter_store data_context)
    | Some target_store_name => getitem (stores data_context) target_store_name
    end;
  mret {| data_context := data_context; target_store := target_store |}.

Definition _run (self : t) (validation_result_suite : option ValidationResult)
    (validation_result_suite_identifier : Identifier) (data_asset : Value) : M Value :=
  logger_debug "StoreEvaluationParametersAction.run" ;;
  match validation_result_suite with
  | None => mret VNone
  | Some validation_result_suite =>
      match validation_result_suite_identifier with
      | OtherObject _ =>
          raise (TypeError (NotValidationResultIdentifier
                   "validation_result_id"
                   (type_of validation_result_suite_identifier)))
      | IsValidationResultIdentifier _ =>
          call (StoreEvaluationParameters validation_result_suite)
               (store_evaluation_parameters (data_context self)
                  validation_result_suite) ;;
          mret VNone
      end
  end.
End StoreEvaluationParametersAction.

Module StoreMetricsAction.
Record t := {
  data_context : DataContext;
  _requested_metrics : RequestedMetrics;
  _target_store_name : string;
}.

(** The default of [target_store_name]. *)
Definition default_target_store_name : string := "metrics_store".

Definition __init__ (data_context : DataContext)
    (requested_metrics : RequestedMetrics) (target_store_name : string) : M t :=
  store ←
    try_except_KeyError
      (getitem (stores data_context) target_store_name)
      (raise (DataContextError
                ("Unable to find store " +:+ target_store_name
                 +:+ " in your DataContext configuration.")));
  if negb (isinstance_MetricStore store) then
    raise (DataContextError
             "StoreMetricsAction must have a valid MetricsStore for its target store.")
  else
    mret {| data_context := data_context;
            _requested_metrics := requested_metrics;
            _target_store_name := target_store_name |}.

Definition _run (self : t) (validation_result_suite : option ValidationResult)
    (validation_result_suite_identifier : Identifier) (data_asset : Value) : M Value :=
  logger_debug "StoreMetricsAction.run" ;;
  match validation_result_suite with
  | None => mret VNone
  | Some validation_result_suite =>
      match validation_result_suite_identifier with
      | OtherObject _ =>
          raise (TypeError (NotValidationResultIdentifier
                   "validation_result_id"
                   (type_of validation_result_suite_identifier)))
      | IsValidationResultIdentifier _ =>
          call (StoreValidationResultMetrics (_requested_metrics self)
                  validation_result_suite (_target_store_name self))
               (store_validation_result_metrics (data_context self)
                  (_requested_metrics self) validation_result_suite
                  (_target_store_name self)) ;;
          mret VNone
      end
  end.
End StoreMetricsAction.

Module UpdateDataDocsAction.
Record t := {
  data_context : DataContext;
  _site_names : option (list string);
}.

Definition __init__ (data_context : DataContext)
    (site_names target_site_names : option (list string)) : M t :=
  site_names ←
    (if truthy target_site_names then
       warnings_warn "target_site_names is deprecated. Please use site_names instead."
                     "DeprecationWarning" ;;
       (if truthy site_names then
          raise (DataContextError
                   ("Invalid configuration: legacy key target_site_names and site_names key are "
                    +:+ "both present in UpdateDataDocsAction configuration"))
        else mret tt) ;;
       mret target_site_names
     else mret site_names);
  mret {| data_context := data_context; _site_names := site_names |}.

Definition _run (self : t) (validation_result_suite : option ValidationResult)
    (validation_result_suite_identifier : Identifier) (data_asset : Value) : M Value :=
  logger_debug "UpdateDataDocsAction.run" ;;
  match validation_result_suite with
  | None => mret VNone
  | Some validation_result_suite =>
      match validation_result_suite_identifier with
      | OtherObject _ =>
          raise (TypeError (NotValidationResultIdentifier
                   "validation_result_id"
                   (type_of validation_result_suite_identifier)))
      | IsValidationResultIdentifier identifier =>
          call (BuildDataDocs (_site_names self) [identifier])
               (build_data_docs (data_context self) (_site_names self) [identifier]) ;;
          mret VNone
      end
  end.
End UpdateDataDocsAction.

(** An action object, by its class.  [_run] is looked up in the class of the
    object; [run] is inherited from [ValidationAction] by all of them. *)
Inductive Action :=
| Base (self : ValidationAction.t)
| NoOp (self : NoOpAction.t)
| SlackNotification (self : SlackNotificationAction.t)
| StoreValidationResult (self : StoreValidationResultAction.t)
| StoreEvaluationParameters_ (self : StoreEvaluationParametersAction.t)
| StoreMetrics (self : StoreMetricsAction.t)
| UpdateDataDocs (self : UpdateDataDocsAction.t).

Definition _run {transport : Transport} (self : Action) : option ValidationResult -> Identifier -> Value -> M Value :=
  match self with
  | Base self => ValidationAction._run self
  | NoOp self => NoOpAction._run self
  | SlackNotification self => SlackNotificationAction._run self
  | StoreValidationResult self => StoreValidationResultAction._run self
  | StoreEvaluationParameters_ self => StoreEvaluationParametersAction._run self
  | StoreMetrics self => StoreMetricsAction._run self
  | UpdateDataDocs self => UpdateDataDocsAction._run self
  end.

(** [run] forwards its three arguments and [**kwargs] to [_run].  No [_run] of
    this module takes a keyword beyond its three parameters, so a call with a
    non-empty [kwargs] is rejected by the interpreter before the body of
    [_run] starts. *)
Definition run {transport : Transport} (self : Action)
    (validation_result_suite : option ValidationResult)
    (validation_result_suite_identifier : Identifier) (data_asset : Value)
    (kwargs : Kwargs) : M Value :=
  match kwargs with
  | [] => _run self validation_result_suite validation_result_suite_identifier data_asset
  | _ :: _ => raise (TypeError KeywordArgumentsRejected)
  end.

(** The six concrete actions, and the five of them that guard their inputs. *)
Definition concrete (self : Action) : bool :=
  match self with
  | Base _ => false
  | _ => true
  end.

Definition guards_inputs (self : Action) : bool :=
  match self with
  | Base _ | NoOp _ => false
  | _ => true
  end.

(** The name each guard gives to the identifier in its message. *)
Definition guard_param (self : Action) : string :=
  match self with
  | SlackNotification _ => "validation_result_suite_id"
  | _ => "validation_result_id"
  end.

(** [data_context] with another registry of stores, all else kept. *)
Definition with_stores (data_context : DataContext) (registry : gmap string Store)
    : DataContext :=
  {| stores := registry;
     validations_store_name := validations_store_name data_context;
     evaluation_parameter_store := evaluation_parameter_store data_context;
     store_evaluation_parameters := store_evaluation_parameters data_context;
     store_validation_result_metrics := store_validation_result_metrics data_context;
     build_data_docs := build_data_docs data_context |}.

(** ** Observations on a run *)

Definition result_of {A} (m : M A) (w : World) : Outcome A := (m w).1.

Definition world_after {A} (m : M A) (w : World) : World := (m w).2.

(** No call of the list reaches a collaborator. *)
Definition no_collaborator_touched (l : list Event) : bool :=
  forallb (fun e => negb (touches_collaborator e)) l.

(** The trigger policy of the notification action, in the words of the
    specification. *)
Definition policy_fires (notify_on : string) (result_success : bool) : Prop :=
  notify_on = "all"
  ∨ (notify_on = "success" ∧ result_success = true)
  ∨ (notify_on = "failure" ∧ result_success = false).



(** ** Test doubles *)
Module Fixtures.
Definition validations : Store := {| store_ref := 1; isinstance_MetricStore := false |}.
Definition parameters : Store := {| store_ref := 2; isinstance_MetricStore := false |}.
Definition metrics : Store := {| store_ref := 3; isinstance_MetricStore := true |}.

Definition context : DataContext :=
  {| stores := <["validations_store" := validations]>
               (<["evaluation_parameter_store" := parameters]>
                (<["metrics_store" := metrics]> ∅));
     validations_store_name := "validations_store";
     evaluation_parameter_store := parameters;
     store_evaluation_parameters := fun _ => Returned VNone;
     store_validation_result_metrics := fun _ _ _ => Returned VNone;
     build_data_docs := fun _ _ => Returned VNone |}.

Definition stub_renderer : Renderer :=
  {| render := fun r => Returned {| query_text := results r |} |}.

Definition stub_transport : Transport :=
  {| send_slack_notification := fun _ _ => Returned (VStr "Slack notification succeeded.") |}.

Definition passed : ValidationResult := {| success := true; results := "passed" |}.
Definition failed : ValidationResult := {| success := false; results := "failed" |}.

Definition id1 : ValidationResultIdentifier := {| vri_key := "suite/run/batch" |}.

Definition not_an_identifier : Identifier := OtherObject "<class 'str'>".

Definition empty_world : World := {| heap := ∅; trace := [] |}.

(** A world in which the validations store already holds a result at [id1]. *)
Definition used_world : World :=
  {| heap := {[ 1%positive := {[ "suite/run/batch" := failed ]} ]}; trace := [] |}.

Definition store_results : StoreValidationResultAction.t :=
  {| StoreValidationResultAction.data_context := context;
     StoreValidationResultAction.target_store := validations |}.

Definition store_parameters (target : Store) : StoreEvaluationParametersAction.t :=
  {| StoreEvaluationParametersAction.data_context := context;
     StoreEvaluationParametersAction.target_store := target |}.

Definition slack (policy : string) : SlackNotificationAction.t :=
  {| SlackNotificationAction.data_context := context;
     SlackNotificationAction.renderer := stub_renderer;
     SlackNotificationAction.slack_webhook := "https://hooks.slack.example/T0";
     SlackNotificationAction.notify_on := policy |}.

Definition renderer_config : gmap string string :=
  <["module_name" := "great_expectations.render.renderer.slack_renderer"]>
  (<["class_name" := "SlackRenderer"]> ∅).

(** An instantiation that builds the stub renderer from [renderer_config] and
    answers a falsy value for any other config. *)
Definition stub_instantiation : Instantiation :=
  {| instantiate_class_from_config := fun config _ _ =>
       if bool_decide (config = renderer_config)
       then Returned (Some stub_renderer) else Returned None |}.


Definition id2 : ValidationResultIdentifier := {| vri_key := "suite/run/other_batch" |}.
End Fixtures.

(** ** Proof tools *)

(** Run a method symbolically: unfold the monad and bring the trace to the
    form [trace w ++ added]. *)
Ltac exec :=
  unfold result_of, world_after, calls,
    run, _run,
    ValidationAction._run, NoOpAction._run, SlackNotificationAction._run,
    StoreValidationResultAction._run, StoreEvaluationParametersAction._run,
    StoreMetricsAction._run, UpdateDataDocsAction._run,
    ValidationAction.__init__, NoOpAction.__init__,
    StoreValidationResultAction.__init__, StoreEvaluationParametersAction.__init__,
    StoreMetricsAction.__init__, UpdateDataDocsAction.__init__,
    Store_set, upsert, call, getitem, try_except_KeyError,
    logger_debug, print, warnings_warn, emit, lift, raise,
    mbind, M_bind, mret, M_ret in *;
  simpl in *;
  rewrite <- ?app_assoc; simpl;
  rewrite ?drop_app_length.

(** Decide every answer of a collaborator that the goal depends on. *)
Ltac answers :=
  repeat match goal with
         | |- context [match ?o with Returned _ => _ | Raised _ => _ end] =>
             destruct o; simpl; rewrite <- ?app_assoc; simpl
         end.

(** Bring the calls of a hypothesis to a list, whatever the collaborators
    answer. *)
Ltac normalise_calls H :=
  simpl in H; rewrite <- ?app_assoc in H; simpl in H;
  rewrite ?drop_app_length, ?drop_all in H.

Ltac answers_in H :=
  repeat match type of H with
         | context [match ?o with Returned _ => _ | Raised _ => _ end] =>
             destruct o eqn:?; normalise_calls H
         end.

(** Membership in a list of calls that has been computed. *)
Ltac member H :=
  repeat (apply elem_of_cons in H as [H|H]; [try discriminate H|]);
  try (apply elem_of_nil in H; destruct H).

(** [run] only ever adds calls to the trace: what was recorded stays. *)
Lemma run_extends_trace {transport : Transport} (self : Action)
    (r : option ValidationResult) (i : Identifier) (asset : Value) (kwargs : Kwargs)
    (w : World) :
  trace (world_after (run self r i asset kwargs) w)
  = trace w ++ calls (run self r i asset kwargs) w.
Proof.
  destruct kwargs as [|kw kwargs]; [|exec; by rewrite drop_all, app_nil_r].
  destruct self, r as [r|], i as [i|ty]; exec; rewrite ?drop_all, ?app_nil_r;
    try reflexivity;
    try (destruct (_ || _); simpl);
    answers; rewrite ?drop_app_length, ?drop_all, ?app_nil_r; reflexivity.
Qed.

(** ** The base class *)

(** C4 (as the code behaves): the base [_run] does not raise; it returns the
    class object [NotImplementedError] to its caller, through [run] as well,
    and leaves the world as it was. *)
Theorem base_run_returns_NotImplementedError_class {transport : Transport}
    (self : ValidationAction.t) (r : option ValidationResult) (i : Identifier)
    (asset : Value) (w : World) :
  ValidationAction._run self r i asset w = (Returned (VClass "NotImplementedError"), w)
  ∧ run (Base self) r i asset [] w = (Returned (VClass "NotImplementedError"), w)
  ∧ ∀ e, result_of (run (Base self) r i asset []) w ≠ Raised e.
Proof. exec. repeat split. discriminate. Qed.

(** ** Guards shared by the actions *)

(** C2: each of the six concrete actions, run with a [None] result, returns
    [None] and reaches no collaborator: the calls it makes are only to the
    logger or to [print], and no store changes.  With extra keyword arguments
    the call is rejected before [_run] starts, so no collaborator is reached
    then either. *)
Theorem run_None_touches_no_collaborator {transport : Transport} (self : Action)
    (i : Identifier) (asset : Value) (w : World) :
  concrete self = true ->
  result_of (run self None i asset []) w = Returned VNone
  ∧ trace (world_after (run self None i asset []) w)
    = trace w ++ calls (run self None i asset []) w
  ∧ no_collaborator_touched (calls (run self None i asset []) w) = true
  ∧ heap (world_after (run self None i asset []) w) = heap w
  ∧ ∀ kwargs,
      no_collaborator_touched (calls (run self None i asset kwargs) w) = true
      ∧ heap (world_after (run self None i asset kwargs) w) = heap w.
Proof.
  intros Hc.
  destruct self; try discriminate Hc; exec;
    (do 4 (split; [reflexivity|]);
     intros [|[k v] kw]; exec; rewrite ?drop_all; split; reflexivity).
Qed.

Lemma run_None_touches_no_collaborator_witness :
  concrete (NoOp {| NoOpAction.data_context := Fixtures.context |}) = true
  ∧ result_of (run (transport := Fixtures.stub_transport)
                 (NoOp {| NoOpAction.data_context := Fixtures.context |}) None
                 (IsValidationResultIdentifier Fixtures.id1) VNone [])
              Fixtures.empty_world
    = Returned VNone.
Proof.
  split; [reflexivity|].
  apply (run_None_touches_no_collaborator (transport := Fixtures.stub_transport)
           (NoOp {| NoOpAction.data_context := Fixtures.context |})
           (IsValidationResultIdentifier Fixtures.id1) VNone Fixtures.empty_world).
  reflexivity.
Defined.

(** C9: in the five actions that guard their inputs, the check for an absent
    result comes first: with a [None] result and an identifier of the wrong
    kind, [run] returns [None], raises nothing, and only logs. *)
Theorem None_result_checked_before_identifier {transport : Transport} (self : Action)
    (i : Identifier) (asset : Value) (w : World) :
  guards_inputs self = true ->
  isinstance_ValidationResultIdentifier i = false ->
  result_of (run self None i asset []) w = Returned VNone
  ∧ (∀ e, result_of (run self None i asset []) w ≠ Raised e)
  ∧ (∃ msg, calls (run self None i asset []) w = [LogDebug msg])
  ∧ heap (world_after (run self None i asset []) w) = heap w.
Proof.
  intros Hg _.
  destruct self; try discriminate Hg; exec;
    (split; [reflexivity|]; split; [discriminate|]; split; [eauto|reflexivity]).
Qed.

Lemma None_result_checked_before_identifier_witness :
  guards_inputs (UpdateDataDocs {| UpdateDataDocsAction.data_context := Fixtures.context;
                                   UpdateDataDocsAction._site_names := None |}) = true
  ∧ isinstance_ValidationResultIdentifier Fixtures.not_an_identifier = false
  ∧ result_of (run (transport := Fixtures.stub_transport)
                 (UpdateDataDocs {| UpdateDataDocsAction.data_context := Fixtures.context;
                                    UpdateDataDocsAction._site_names := None |})
                 None Fixtures.not_an_identifier VNone [])
              Fixtures.empty_world
    = Returned VNone.
Proof.
  split; [reflexivity|]. split; [reflexivity|].
  apply (None_result_checked_before_identifier (transport := Fixtures.stub_transport)
           (UpdateDataDocs {| UpdateDataDocsAction.data_context := Fixtures.context;
                              UpdateDataDocsAction._site_names := None |})
           Fixtures.not_an_identifier VNone Fixtures.empty_world);
    reflexivity.
Defined.

(** C3 (as stated, for all six concrete actions) fails: [NoOpAction] has no
    guard, and with a result and a string for identifier its [run] returns
    [None] instead of raising. *)
Lemma wrong_identifier_not_rejected_by_NoOpAction :
  ¬ (∀ (T : Transport) (self : Action) (r : ValidationResult) (i : Identifier)
       (asset : Value) (w : World),
       concrete self = true ->
       isinstance_ValidationResultIdentifier i = false ->
       ∃ reason, result_of (run self (Some r) i asset []) w = Raised (TypeError reason)).
Proof.
  intros claim.
  destruct (claim Fixtures.stub_transport
              (NoOp {| NoOpAction.data_context := Fixtures.context |})
              Fixtures.passed Fixtures.not_an_identifier VNone Fixtures.empty_world
              eq_refl eq_refl) as [reason E].
  discriminate E.
Qed.

(** C3 (amended): each of the five guarding actions, run with a result and an
    identifier that is not a [ValidationResultIdentifier], raises the
    [TypeError] of its guard, having only logged: no collaborator is reached
    and no store changes.  [NoOpAction] checks nothing: it prints its message
    and returns [None], also without reaching a collaborator. *)
Theorem wrong_identifier_raises_TypeError_in_guarding_actions {transport : Transport}
    (self : Action) (r : ValidationResult) (i : Identifier) (asset : Value) (w : World) :
  isinstance_ValidationResultIdentifier i = false ->
  (guards_inputs self = true ->
     result_of (run self (Some r) i asset []) w
     = Raised (TypeError (NotValidationResultIdentifier (guard_param self) (type_of i)))
     ∧ (∃ msg, calls (run self (Some r) i asset []) w = [LogDebug msg])
     ∧ no_collaborator_touched (calls (run self (Some r) i asset []) w) = true
     ∧ heap (world_after (run self (Some r) i asset []) w) = heap w)
  ∧ (∀ a, self = NoOp a ->
       result_of (run self (Some r) i asset []) w = Returned VNone
       ∧ calls (run self (Some r) i asset []) w = [Print "Happily doing nothing"]
       ∧ heap (world_after (run self (Some r) i asset []) w) = heap w).
Proof.
  intros Hi. destruct i as [k|ty]; [discriminate Hi|]. split.
  - intros Hg. destruct self; try discriminate Hg; exec;
      (split; [reflexivity|]; split; [eauto|]; split; reflexivity).
  - intros a ->. exec. repeat split.
Qed.

Lemma wrong_identifier_raises_TypeError_in_guarding_actions_witness :
  isinstance_ValidationResultIdentifier Fixtures.not_an_identifier = false
  ∧ guards_inputs (SlackNotification (Fixtures.slack "all")) = true
  ∧ result_of (run (transport := Fixtures.stub_transport)
                 (SlackNotification (Fixtures.slack "all"))
                 (Some Fixtures.failed) Fixtures.not_an_identifier VNone [])
              Fixtures.empty_world
    = Raised (TypeError (NotValidationResultIdentifier
                           "validation_result_suite_id" "<class 'str'>")).
Proof.
  split; [reflexivity|]. split; [reflexivity|].
  apply (wrong_identifier_raises_TypeError_in_guarding_actions
           (transport := Fixtures.stub_transport)
           (SlackNotification (Fixtures.slack "all"))
           Fixtures.failed Fixtures.not_an_identifier VNone Fixtures.empty_world);
    reflexivity.
Defined.

(** ** The notification action *)

(** The condition of [_run] is the trigger policy of the specification. *)
Lemma policy_condition (notify_on : string) (result_success : bool) :
  String.eqb notify_on "all"
  || String.eqb notify_on "success" && result_success
  || String.eqb notify_on "failure" && negb result_success = true
  ↔ policy_fires notify_on result_success.
Proof.
  unfold policy_fires.
  rewrite !orb_true_iff, !andb_true_iff, !String.eqb_eq, negb_true_iff.
  tauto.
Qed.

(** C1: with a result and a [ValidationResultIdentifier], [_run] of the
    notification action reaches the renderer or the webhook exactly when the
    policy is ["all"], or ["success"] with a successful result, or
    ["failure"] with a failed one.  Then it renders the result, sends the
    query to the webhook and returns what the transport returns (an exception
    of the renderer or of the transport goes to the caller).  Otherwise it
    returns [None] and only logs. *)
Theorem slack_run_fires_iff_policy {transport : Transport} (self : SlackNotificationAction.t)
    (r : ValidationResult) (i : ValidationResultIdentifier) (asset : Value) (w : World) :
  let m := SlackNotificationAction._run self (Some r) (IsValidationResultIdentifier i) asset in
  let fires := policy_fires (SlackNotificationAction.notify_on self) (success r) in
  (fires ↔ existsb is_render_or_send (calls m w) = true)
  ∧ (fires ->
       result_of m w
       = match render (SlackNotificationAction.renderer self) r with
         | Returned query =>
             send_slack_notification query (SlackNotificationAction.slack_webhook self)
         | Raised e => Raised e
         end
       ∧ calls m w
         = LogDebug "SlackNotificationAction.run" :: RenderCall r ::
           match render (SlackNotificationAction.renderer self) r with
           | Returned query =>
               [SendSlackNotification query (SlackNotificationAction.slack_webhook self)]
           | Raised _ => []
           end)
  ∧ (¬ fires ->
       result_of m w = Returned VNone
       ∧ calls m w = [LogDebug "SlackNotificationAction.run"])
  ∧ heap (world_after m w) = heap w.
Proof.
  intros m fires. subst m fires.
  pose proof (policy_condition (SlackNotificationAction.notify_on self) (success r)) as P.
  exec.
  destruct (String.eqb (SlackNotificationAction.notify_on self) "all"
            || String.eqb (SlackNotificationAction.notify_on self) "success" && success r
            || String.eqb (SlackNotificationAction.notify_on self) "failure"
               && negb (success r)) eqn:C.
  - assert (F : policy_fires (SlackNotificationAction.notify_on self) (success r))
      by (apply P; reflexivity).
    destruct (render (SlackNotificationAction.renderer self) r) as [query|e];
      simpl; rewrite <- ?app_assoc; simpl; rewrite ?drop_app_length;
      [destruct (send_slack_notification query
                   (SlackNotificationAction.slack_webhook self))|];
      simpl; rewrite <- ?app_assoc; simpl; rewrite ?drop_app_length;
      (split; [tauto|]); (split; [intros _; split; reflexivity|]);
      (split; [tauto|reflexivity]).
  - assert (F : ¬ policy_fires (SlackNotificationAction.notify_on self) (success r))
      by (intros F; apply P in F; discriminate F).
    simpl. rewrite ?drop_app_length. simpl.
    split; [split; [tauto|discriminate]|].
    split; [tauto|]. split; [intros _; split; reflexivity|reflexivity].
Qed.

Lemma slack_run_fires_iff_policy_witness :
  (¬ policy_fires "failure" (success Fixtures.passed)
   ∧ result_of (SlackNotificationAction._run (transport := Fixtures.stub_transport)
                  (Fixtures.slack "failure") (Some Fixtures.passed)
                  (IsValidationResultIdentifier Fixtures.id1) VNone)
               Fixtures.empty_world
     = Returned VNone)
  ∧ (policy_fires "failure" (success Fixtures.failed)
     ∧ result_of (SlackNotificationAction._run (transport := Fixtures.stub_transport)
                    (Fixtures.slack "failure") (Some Fixtures.failed)
                    (IsValidationResultIdentifier Fixtures.id1) VNone)
                 Fixtures.empty_world
       = Returned (VStr "Slack notification succeeded.")).
Proof.
  assert (N : ¬ policy_fires "failure" (success Fixtures.passed)).
  { intros [E|[[E _]|[_ E]]]; discriminate E. }
  assert (Y : policy_fires "failure" (success Fixtures.failed)).
  { right. right. split; reflexivity. }
  split; (split; [assumption|]).
  - apply (slack_run_fires_iff_policy (transport := Fixtures.stub_transport)
             (Fixtures.slack "failure") Fixtures.passed Fixtures.id1 VNone
             Fixtures.empty_world).
    exact N.
  - apply (proj1 (proj1 (proj2 (slack_run_fires_iff_policy (transport := Fixtures.stub_transport)
             (Fixtures.slack "failure") Fixtures.failed Fixtures.id1 VNone
             Fixtures.empty_world)) Y)).
Defined.

(** ** The result-persistence action *)

(** C7: [run] of the result-persistence action with a result and a
    [ValidationResultIdentifier] returns [None] after exactly one [set] of the
    pair on the target store.  Afterwards [get] of that identifier on the
    store gives the result, whatever was there before; the other identifiers
    of the store and the other stores keep their values.  The store is the
    object the registry holds: an action constructed for a registered name
    writes where a reader of the registry looks. *)
Theorem store_validation_result_round_trip {transport : Transport}
    (self : StoreValidationResultAction.t) (r : ValidationResult)
    (i : ValidationResultIdentifier) (asset : Value) (w : World) :
  let m := run (StoreValidationResult self) (Some r) (IsValidationResultIdentifier i)
               asset [] in
  let target := StoreValidationResultAction.target_store self in
  result_of m w = Returned VNone
  ∧ calls m w = [LogDebug "StoreValidationResultAction.run"; StoreSet target i r]
  ∧ filter (fun e => is_store_set e = true) (calls m w) = [StoreSet target i r]
  ∧ Store_get target i (world_after m w) = Some r
  ∧ (∀ j, vri_key j ≠ vri_key i ->
       Store_get target j (world_after m w) = Store_get target j w)
  ∧ (∀ s, store_ref s ≠ store_ref target ->
       contents s (world_after m w) = contents s w)
  ∧ (∀ data_context name s w0 w1,
       stores data_context !! name = Some s ->
       StoreValidationResultAction.__init__ data_context (Some name) w0
       = (Returned self, w1) ->
       Store_get s i (world_after m w) = Some r).
Proof.
  intros m target. subst m target. exec.
  split; [reflexivity|]. split; [reflexivity|]. split; [reflexivity|].
  unfold Store_get, contents. simpl.
  split; [rewrite lookup_insert_eq; simpl; by rewrite lookup_insert_eq|].
  split; [intros j Hj; rewrite lookup_insert_eq; simpl; by rewrite lookup_insert_ne|].
  split; [intros s Hs; by rewrite lookup_insert_ne|].
  intros data_context name s w0 w1 Hs. rewrite Hs. intros [= <- _]. simpl.
  rewrite lookup_insert_eq; simpl; by rewrite lookup_insert_eq.
Qed.

Lemma store_validation_result_round_trip_witness :
  stores Fixtures.context !! "validations_store" = Some Fixtures.validations
  ∧ StoreValidationResultAction.__init__ Fixtures.context (Some "validations_store")
      Fixtures.empty_world
    = (Returned Fixtures.store_results, Fixtures.empty_world)
  ∧ Store_get Fixtures.validations Fixtures.id1 Fixtures.used_world = Some Fixtures.failed
  ∧ Store_get Fixtures.validations Fixtures.id1
      (world_after (run (transport := Fixtures.stub_transport)
                      (StoreValidationResult Fixtures.store_results)
                      (Some Fixtures.passed) (IsValidationResultIdentifier Fixtures.id1)
                      VNone [])
                   Fixtures.used_world)
    = Some Fixtures.passed.
Proof.
  assert (L : stores Fixtures.context !! "validations_store" = Some Fixtures.validations)
    by (vm_compute; reflexivity).
  assert (I : StoreValidationResultAction.__init__ Fixtures.context
                (Some "validations_store") Fixtures.empty_world
              = (Returned Fixtures.store_results, Fixtures.empty_world))
    by (vm_compute; reflexivity).
  split; [exact L|]. split; [exact I|]. split; [vm_compute; reflexivity|].
  exact (proj2 (proj2 (proj2 (proj2 (proj2 (proj2
           (store_validation_result_round_trip (transport := Fixtures.stub_transport)
              Fixtures.store_results Fixtures.passed Fixtures.id1 VNone
              Fixtures.used_world))))))
           Fixtures.context "validations_store" Fixtures.validations
           Fixtures.empty_world Fixtures.empty_world L I).
Defined.

(** The end-to-end scenario of the specification: an action constructed with
    [target_store_name=None] writes into the default validations store of the
    Data Context. *)
Lemma store_validation_result_default_store :
  ∃ self w1,
    StoreValidationResultAction.__init__ Fixtures.context None Fixtures.empty_world
    = (Returned self, w1)
    ∧ Store_get Fixtures.validations Fixtures.id1
        (world_after (run (transport := Fixtures.stub_transport) (StoreValidationResult self)
                        (Some Fixtures.passed) (IsValidationResultIdentifier Fixtures.id1)
                        VNone [])
                     w1)
      = Some Fixtures.passed.
Proof. eexists _, _. split; vm_compute; reflexivity. Qed.

(** ** The evaluation-parameter persistence action *)

(** C8 (as stated) fails: constructed with a name that the registry does not
    hold, the constructor raises [KeyError]. *)
Lemma evaluation_parameters_init_unknown_store_raises :
  ¬ (∀ (data_context : DataContext) (target_store_name : option string) (w : World),
       ∃ self w', StoreEvaluationParametersAction.__init__ data_context target_store_name w
                  = (Returned self, w')).
Proof.
  intros claim.
  destruct (claim Fixtures.context (Some "no_such_store") Fixtures.empty_world)
    as (self & w' & E).
  vm_compute in E. discriminate E.
Qed.

(** C8 (amended): the constructor takes the default evaluation parameter store
    of the Data Context when no name is given, and the registered store when
    the name is in the registry; for a name that is not in the registry it
    raises [KeyError] with that name.  It never changes the world. *)
Theorem evaluation_parameters_init_resolution (data_context : DataContext) (w : World) :
  StoreEvaluationParametersAction.__init__ data_context None w
  = (Returned {| StoreEvaluationParametersAction.data_context := data_context;
                 StoreEvaluationParametersAction.target_store :=
                   evaluation_parameter_store data_context |}, w)
  ∧ (∀ name s, stores data_context !! name = Some s ->
       StoreEvaluationParametersAction.__init__ data_context (Some name) w
       = (Returned {| StoreEvaluationParametersAction.data_context := data_context;
                      StoreEvaluationParametersAction.target_store := s |}, w))
  ∧ (∀ name, stores data_context !! name = None ->
       StoreEvaluationParametersAction.__init__ data_context (Some name) w
       = (Raised (KeyError name), w)).
Proof.
  exec. split; [reflexivity|].
  split; [intros name s E|intros name E]; rewrite E; reflexivity.
Qed.

Lemma evaluation_parameters_init_resolution_witness :
  (stores Fixtures.context !! "metrics_store" = Some Fixtures.metrics
   ∧ result_of (StoreEvaluationParametersAction.__init__ Fixtures.context
                  (Some "metrics_store")) Fixtures.empty_world
     = Returned {| StoreEvaluationParametersAction.data_context := Fixtures.context;
                   StoreEvaluationParametersAction.target_store := Fixtures.metrics |})
  ∧ (stores Fixtures.context !! "no_such_store" = None
     ∧ result_of (StoreEvaluationParametersAction.__init__ Fixtures.context
                    (Some "no_such_store")) Fixtures.empty_world
       = Raised (KeyError "no_such_store")).
Proof.
  assert (L : stores Fixtures.context !! "metrics_store" = Some Fixtures.metrics)
    by (vm_compute; reflexivity).
  assert (N : stores Fixtures.context !! "no_such_store" = None)
    by (vm_compute; reflexivity).
  split; (split; [assumption|]); unfold result_of.
  - rewrite (proj1 (proj2 (evaluation_parameters_init_resolution Fixtures.context
                             Fixtures.empty_world)) _ _ L).
    reflexivity.
  - rewrite (proj2 (proj2 (evaluation_parameters_init_resolution Fixtures.context
                             Fixtures.empty_world)) _ N).
    reflexivity.
Defined.

(** C10: [_run] of the evaluation-parameter persistence action does not read
    [target_store]: with a result and a [ValidationResultIdentifier] it logs,
    calls [store_evaluation_parameters(result)] of the Data Context and nothing
    else, and changes no store itself; replacing the target store of an action
    changes nothing in [_run], so two actions constructed on one Data Context
    with different resolvable store names run alike. *)
Theorem evaluation_parameters_run_ignores_target_store
    (self : StoreEvaluationParametersAction.t) (r : ValidationResult)
    (i : ValidationResultIdentifier) (asset : Value) (w : World) :
  let m := StoreEvaluationParametersAction._run self (Some r)
             (IsValidationResultIdentifier i) asset in
  calls m w = [LogDebug "StoreEvaluationParametersAction.run"; StoreEvaluationParameters r]
  ∧ heap (world_after m w) = heap w
  ∧ result_of m w
    = match store_evaluation_parameters
              (StoreEvaluationParametersAction.data_context self) r with
      | Returned _ => Returned VNone
      | Raised e => Raised e
      end
  ∧ (∀ other r' i' asset' w',
       StoreEvaluationParametersAction._run
         {| StoreEvaluationParametersAction.data_context :=
              StoreEvaluationParametersAction.data_context self;
            StoreEvaluationParametersAction.target_store := other |} r' i' asset' w'
       = StoreEvaluationParametersAction._run self r' i' asset' w')
  ∧ (∀ data_context name1 name2 self1 self2 w1 w1' w2 w2' r' i' asset' w',
       StoreEvaluationParametersAction.__init__ data_context name1 w1
       = (Returned self1, w1') ->
       StoreEvaluationParametersAction.__init__ data_context name2 w2
       = (Returned self2, w2') ->
       StoreEvaluationParametersAction._run self1 r' i' asset' w'
       = StoreEvaluationParametersAction._run self2 r' i' asset' w').
Proof.
  intros m. subst m. exec.
  split; [|split; [|split; [|split]]].
  - destruct (store_evaluation_parameters _ r); simpl;
      rewrite <- ?app_assoc; simpl; by rewrite drop_app_length.
  - by destruct (store_evaluation_parameters _ r).
  - by destruct (store_evaluation_parameters _ r).
  - reflexivity.
  - intros data_context name1 name2 self1 self2 w1 w1' w2 w2' r' i' asset' w' E1 E2.
    assert (D1 : StoreEvaluationParametersAction.data_context self1 = data_context).
    { destruct name1 as [n|]; [destruct (stores data_context !! n)|];
        simpl in E1; by simplify_eq. }
    assert (D2 : StoreEvaluationParametersAction.data_context self2 = data_context).
    { destruct name2 as [n|]; [destruct (stores data_context !! n)|];
        simpl in E2; by simplify_eq. }
    by rewrite D1, D2.
Qed.

Lemma evaluation_parameters_run_ignores_target_store_witness :
  StoreEvaluationParametersAction.__init__ Fixtures.context None Fixtures.empty_world
  = (Returned (Fixtures.store_parameters Fixtures.parameters), Fixtures.empty_world)
  ∧ StoreEvaluationParametersAction.__init__ Fixtures.context (Some "metrics_store")
      Fixtures.empty_world
    = (Returned (Fixtures.store_parameters Fixtures.metrics), Fixtures.empty_world)
  ∧ StoreEvaluationParametersAction._run (Fixtures.store_parameters Fixtures.parameters)
      (Some Fixtures.passed) (IsValidationResultIdentifier Fixtures.id1) VNone
      Fixtures.used_world
    = StoreEvaluationParametersAction._run (Fixtures.store_parameters Fixtures.metrics)
        (Some Fixtures.passed) (IsValidationResultIdentifier Fixtures.id1) VNone
        Fixtures.used_world.
Proof.
  assert (I1 : StoreEvaluationParametersAction.__init__ Fixtures.context None
                 Fixtures.empty_world
               = (Returned (Fixtures.store_parameters Fixtures.parameters),
                  Fixtures.empty_world))
    by (vm_compute; reflexivity).
  assert (I2 : StoreEvaluationParametersAction.__init__ Fixtures.context
                 (Some "metrics_store") Fixtures.empty_world
               = (Returned (Fixtures.store_parameters Fixtures.metrics),
                  Fixtures.empty_world))
    by (vm_compute; reflexivity).
  split; [exact I1|]. split; [exact I2|].
  exact (proj2 (proj2 (proj2 (proj2
           (evaluation_parameters_run_ignores_target_store
              (Fixtures.store_parameters Fixtures.parameters) Fixtures.passed
              Fixtures.id1 VNone Fixtures.used_world))))
           Fixtures.context None (Some "metrics_store")
           (Fixtures.store_parameters Fixtures.parameters)
           (Fixtures.store_parameters Fixtures.metrics)
           Fixtures.empty_world Fixtures.empty_world Fixtures.empty_world
           Fixtures.empty_world (Some Fixtures.passed)
           (IsValidationResultIdentifier Fixtures.id1) VNone Fixtures.used_world I1 I2).
Defined.

(** ** The metrics-persistence action *)

(** C5: the constructor of the metrics-persistence action raises
    [DataContextError] when the registry has no store of the given name, and
    when the store of that name is not a [MetricStore]; it returns an action
    only when both checks pass.  [_run] makes neither check: it gives the same
    outcome on any registry, and a [DataContextError] can leave it only as
    the error of the Data Context's [store_validation_result_metrics]. *)
Theorem metrics_store_checked_at_construction (data_context : DataContext)
    (requested_metrics : RequestedMetrics) (target_store_name : string) (w : World) :
  let init := StoreMetricsAction.__init__ data_context requested_metrics target_store_name in
  (stores data_context !! target_store_name = None ->
     init w = (Raised (DataContextError
                         ("Unable to find store " +:+ target_store_name
                          +:+ " in your DataContext configuration.")), w))
  ∧ (∀ store, stores data_context !! target_store_name = Some store ->
       isinstance_MetricStore store = false ->
       init w = (Raised (DataContextError
                   "StoreMetricsAction must have a valid MetricsStore for its target store."),
                 w))
  ∧ (∀ self w', init w = (Returned self, w') ->
       ∃ store, stores data_context !! target_store_name = Some store
                ∧ isinstance_MetricStore store = true
                ∧ self = {| StoreMetricsAction.data_context := data_context;
                            StoreMetricsAction._requested_metrics := requested_metrics;
                            StoreMetricsAction._target_store_name := target_store_name |}
                ∧ w' = w)
  ∧ (∀ self registry r i asset w',
       StoreMetricsAction._run
         {| StoreMetricsAction.data_context :=
              with_stores (StoreMetricsAction.data_context self) registry;
            StoreMetricsAction._requested_metrics := StoreMetricsAction._requested_metrics self;
            StoreMetricsAction._target_store_name := StoreMetricsAction._target_store_name self |}
         r i asset w'
       = StoreMetricsAction._run self r i asset w')
  ∧ (∀ self r i asset w' msg,
       result_of (StoreMetricsAction._run self r i asset) w' = Raised (DataContextError msg) ->
       ∃ result,
         r = Some result
         ∧ store_validation_result_metrics (StoreMetricsAction.data_context self)
             (StoreMetricsAction._requested_metrics self) result
             (StoreMetricsAction._target_store_name self)
           = Raised (DataContextError msg)).
Proof.
  intros init. subst init. exec.
  split; [intros E; by rewrite E|].
  split; [intros store E I; by rewrite E, I|].
  split.
  { intros self w'. destruct (stores data_context !! target_store_name) as [store|] eqn:E;
      [|discriminate].
    destruct (isinstance_MetricStore store) eqn:I; simpl; [|discriminate].
    intros [= <- <-]. by exists store. }
  split; [reflexivity|].
  intros self r i asset w' msg.
  destruct r as [result|]; [|discriminate].
  destruct i as [i|ty]; [|discriminate]. simpl.
  destruct (store_validation_result_metrics _ _ result _) as [v|e] eqn:E; simpl;
    [discriminate|].
  intros [= ->]. by exists result.
Qed.

Lemma metrics_store_checked_at_construction_witness :
  (stores Fixtures.context !! "no_such_store" = None
   ∧ result_of (StoreMetricsAction.__init__ Fixtures.context [] "no_such_store")
       Fixtures.empty_world
     = Raised (DataContextError
                 "Unable to find store no_such_store in your DataContext configuration."))
  ∧ (stores Fixtures.context !! "validations_store" = Some Fixtures.validations
     ∧ isinstance_MetricStore Fixtures.validations = false
     ∧ result_of (StoreMetricsAction.__init__ Fixtures.context [] "validations_store")
         Fixtures.empty_world
       = Raised (DataContextError
                   "StoreMetricsAction must have a valid MetricsStore for its target store.")).
Proof.
  assert (N : stores Fixtures.context !! "no_such_store" = None)
    by (vm_compute; reflexivity).
  assert (L : stores Fixtures.context !! "validations_store" = Some Fixtures.validations)
    by (vm_compute; reflexivity).
  split; [split; [exact N|]|split; [exact L|split; [reflexivity|]]]; unfold result_of.
  - rewrite (proj1 (metrics_store_checked_at_construction Fixtures.context []
                      "no_such_store" Fixtures.empty_world) N).
    reflexivity.
  - rewrite (proj1 (proj2 (metrics_store_checked_at_construction Fixtures.context []
                             "validations_store" Fixtures.empty_world))
               Fixtures.validations L eq_refl).
    reflexivity.
Defined.

(** ** The documentation-refresh action *)

(** C6 (as stated) fails for a deprecated parameter that is given but empty:
    the constructor then warns of nothing and keeps [site_names], so the
    action asks [build_data_docs] for [None] where the one constructed with
    [site_names=[]] asks for [[]]. *)
Lemma update_data_docs_empty_deprecated_parameter :
  calls (UpdateDataDocsAction.__init__ Fixtures.context None (Some [])) Fixtures.empty_world
  = []
  ∧ result_of (UpdateDataDocsAction.__init__ Fixtures.context None (Some []))
      Fixtures.empty_world
    = Returned {| UpdateDataDocsAction.data_context := Fixtures.context;
                  UpdateDataDocsAction._site_names := None |}
  ∧ result_of (UpdateDataDocsAction.__init__ Fixtures.context (Some []) None)
      Fixtures.empty_world
    = Returned {| UpdateDataDocsAction.data_context := Fixtures.context;
                  UpdateDataDocsAction._site_names := Some [] |}
  ∧ calls (UpdateDataDocsAction._run
             {| UpdateDataDocsAction.data_context := Fixtures.context;
                UpdateDataDocsAction._site_names := None |}
             (Some Fixtures.passed) (IsValidationResultIdentifier Fixtures.id1) VNone)
          Fixtures.empty_world
    ≠ calls (UpdateDataDocsAction._run
               {| UpdateDataDocsAction.data_context := Fixtures.context;
                  UpdateDataDocsAction._site_names := Some [] |}
               (Some Fixtures.passed) (IsValidationResultIdentifier Fixtures.id1) VNone)
            Fixtures.empty_world.
Proof.
  split; [reflexivity|]. split; [reflexivity|]. split; [reflexivity|].
  vm_compute. discriminate.
Qed.

(** C6 (amended): with both parameters truthy the constructor warns and
    raises [DataContextError].  With a truthy deprecated parameter and no
    modern one it emits the deprecation warning and returns the very action
    the modern parameter of the same value gives, which therefore runs
    alike.  A deprecated parameter that is [None] or empty counts as absent:
    no warning, and [site_names] is kept. *)
Theorem update_data_docs_init_deprecated_parameter (data_context : DataContext)
    (site_names target_site_names : option (list string)) (w : World) :
  let deprecation :=
    Warn "DeprecationWarning"
         "target_site_names is deprecated. Please use site_names instead." in
  let init := UpdateDataDocsAction.__init__ data_context in
  (truthy target_site_names = true -> truthy site_names = true ->
     result_of (init site_names target_site_names) w
     = Raised (DataContextError
                 "Invalid configuration: legacy key target_site_names and site_names key are both present in UpdateDataDocsAction configuration")
     ∧ calls (init site_names target_site_names) w = [deprecation])
  ∧ (truthy target_site_names = true ->
       calls (init None target_site_names) w = [deprecation]
       ∧ calls (init target_site_names None) w = []
       ∧ result_of (init None target_site_names) w
         = Returned {| UpdateDataDocsAction.data_context := data_context;
                       UpdateDataDocsAction._site_names := target_site_names |}
       ∧ result_of (init None target_site_names) w
         = result_of (init target_site_names None) w
       ∧ (∀ self1 self2 r i asset w',
            result_of (init None target_site_names) w = Returned self1 ->
            result_of (init target_site_names None) w = Returned self2 ->
            UpdateDataDocsAction._run self1 r i asset w'
            = UpdateDataDocsAction._run self2 r i asset w'))
  ∧ (truthy target_site_names = false ->
       result_of (init site_names target_site_names) w
       = Returned {| UpdateDataDocsAction.data_context := data_context;
                     UpdateDataDocsAction._site_names := site_names |}
       ∧ calls (init site_names target_site_names) w = []).
Proof.
  intros deprecation init. subst deprecation init. exec.
  split; [|split].
  - intros T S. rewrite T, S. simpl. by rewrite drop_app_length.
  - intros T. rewrite T. simpl. rewrite drop_app_length, drop_all.
    do 4 (split; [reflexivity|]).
    intros self1 self2 r i asset w' [= <-] [= <-]. reflexivity.
  - intros T. rewrite T. simpl. by rewrite drop_all.
Qed.

Lemma update_data_docs_init_deprecated_parameter_witness :
  (truthy (Some ["production_site"]) = true
   ∧ truthy (Some ["local_site"]) = true
   ∧ result_of (UpdateDataDocsAction.__init__ Fixtures.context
                  (Some ["local_site"]) (Some ["production_site"]))
               Fixtures.empty_world
     = Raised (DataContextError
                 "Invalid configuration: legacy key target_site_names and site_names key are both present in UpdateDataDocsAction configuration"))
  ∧ result_of (UpdateDataDocsAction.__init__ Fixtures.context
                 None (Some ["production_site"]))
              Fixtures.empty_world
    = result_of (UpdateDataDocsAction.__init__ Fixtures.context
                   (Some ["production_site"]) None)
                Fixtures.empty_world
  ∧ (truthy (Some []) = false
     ∧ calls (UpdateDataDocsAction.__init__ Fixtures.context None (Some []))
             Fixtures.empty_world
       = []).
Proof.
  split; [split; [reflexivity|split; [reflexivity|]]|split; [|split; [reflexivity|]]].
  - apply (proj1 (update_data_docs_init_deprecated_parameter Fixtures.context
                    (Some ["local_site"]) (Some ["production_site"])
                    Fixtures.empty_world));
      reflexivity.
  - apply (proj1 (proj2 (update_data_docs_init_deprecated_parameter Fixtures.context
                           None (Some ["production_site"]) Fixtures.empty_world)));
      reflexivity.
  - apply (proj2 (proj2 (update_data_docs_init_deprecated_parameter Fixtures.context
                           None (Some []) Fixtures.empty_world)));
      reflexivity.
Defined.

(** The text of the guard's [TypeError] for a string passed as identifier. *)
Example guard_message_text :
  type_error_message
    (NotValidationResultIdentifier (guard_param (NoOp {| NoOpAction.data_context :=
                                                           Fixtures.context |}))
       (type_of Fixtures.not_an_identifier))
  = Some "validation_result_id must be of type ValidationResultIdentifier, not <class 'str'>".
Proof. reflexivity. Qed.


(** ** Further properties of the constructors and of [run] *)

(** X1: the constructor of the result-persistence action looks the store up
    in the registry: a registered name gives the registered store, a name that
    is not registered raises [KeyError] with that name, and no name at all is
    the same as the Data Context's [validations_store_name]. *)
Theorem store_validation_result_init_resolution (data_context : DataContext) (w : World) :
  (∀ name s, stores data_context !! name = Some s ->
     StoreValidationResultAction.__init__ data_context (Some name) w
     = (Returned {| StoreValidationResultAction.data_context := data_context;
                    StoreValidationResultAction.target_store := s |}, w))
  ∧ (∀ name, stores data_context !! name = None ->
       StoreValidationResultAction.__init__ data_context (Some name) w
       = (Raised (KeyError name), w))
  ∧ StoreValidationResultAction.__init__ data_context None w
    = StoreValidationResultAction.__init__ data_context
        (Some (validations_store_name data_context)) w.
Proof.
  exec. split; [intros name s E; by rewrite E|].
  split; [intros name E; by rewrite E|reflexivity].
Qed.

Lemma store_validation_result_init_resolution_witness :
  stores Fixtures.context !! "no_such_store" = None
  ∧ StoreValidationResultAction.__init__ Fixtures.context (Some "no_such_store")
      Fixtures.used_world
    = (Raised (KeyError "no_such_store"), Fixtures.used_world).
Proof.
  assert (N : stores Fixtures.context !! "no_such_store" = None)
    by (vm_compute; reflexivity).
  split; [exact N|].
  exact (proj1 (proj2 (store_validation_result_init_resolution Fixtures.context
                         Fixtures.used_world)) "no_such_store" N).
Defined.

(** X2: of all the actions only the result-persistence action calls [set] on
    a store, and only on its own target store, with the identifier and the
    result it was run with. *)
Theorem only_result_persistence_sets_a_store {transport : Transport} (self : Action)
    (r : option ValidationResult) (i : Identifier) (asset : Value) (kwargs : Kwargs)
    (w : World) (target : Store) (key : ValidationResultIdentifier)
    (value : ValidationResult) :
  StoreSet target key value ∈ calls (run self r i asset kwargs) w ->
  ∃ a, self = StoreValidationResult a
       ∧ target = StoreValidationResultAction.target_store a
       ∧ r = Some value
       ∧ i = IsValidationResultIdentifier key
       ∧ kwargs = [].
Proof.
  intros Hin.
  destruct kwargs as [|kw kwargs];
    [|exec; rewrite drop_all in Hin; by apply elem_of_nil in Hin].
  destruct self as [a|a|a|a|a|a|a], r as [r|], i as [k|ty]; exec;
    try match type of Hin with
        | context [if ?b then _ else _] => destruct b
        end;
    answers_in Hin; normalise_calls Hin; member Hin.
  injection Hin as -> -> ->. by exists a.
Qed.

Lemma only_result_persistence_sets_a_store_witness :
  StoreSet Fixtures.validations Fixtures.id1 Fixtures.passed
  ∈ calls (run (transport := Fixtures.stub_transport)
             (StoreValidationResult Fixtures.store_results) (Some Fixtures.passed)
             (IsValidationResultIdentifier Fixtures.id1) VNone [])
          Fixtures.empty_world
  ∧ ∃ a, StoreValidationResult Fixtures.store_results = StoreValidationResult a
         ∧ Fixtures.validations = StoreValidationResultAction.target_store a
         ∧ Some Fixtures.passed = Some Fixtures.passed
         ∧ IsValidationResultIdentifier Fixtures.id1
           = IsValidationResultIdentifier Fixtures.id1
         ∧ @nil (string * Value) = [].
Proof.
  assert (Hin : StoreSet Fixtures.validations Fixtures.id1 Fixtures.passed
                ∈ calls (run (transport := Fixtures.stub_transport)
                           (StoreValidationResult Fixtures.store_results)
                           (Some Fixtures.passed)
                           (IsValidationResultIdentifier Fixtures.id1) VNone [])
                        Fixtures.empty_world).
  { unfold calls. simpl. apply list_elem_of_further, list_elem_of_here. }
  split; [exact Hin|].
  exact (only_result_persistence_sets_a_store (transport := Fixtures.stub_transport)
           _ _ _ _ _ _ _ _ _ Hin).
Defined.



(** X4: a metrics-persistence action that was constructed hands to
    [store_validation_result_metrics] of its Data Context exactly the
    requested metrics and the store name it was constructed with, together
    with the result, in one call. *)
Theorem store_metrics_passes_its_configuration (data_context : DataContext)
    (requested_metrics : RequestedMetrics) (target_store_name : string)
    (self : StoreMetricsAction.t) (w0 w1 : World)
    (r : ValidationResult) (i : ValidationResultIdentifier) (asset : Value) (w : World) :
  StoreMetricsAction.__init__ data_context requested_metrics target_store_name w0
  = (Returned self, w1) ->
  calls (StoreMetricsAction._run self (Some r) (IsValidationResultIdentifier i) asset) w
  = [LogDebug "StoreMetricsAction.run";
     StoreValidationResultMetrics requested_metrics r target_store_name]
  ∧ result_of (StoreMetricsAction._run self (Some r) (IsValidationResultIdentifier i)
                 asset) w
    = match store_validation_result_metrics data_context requested_metrics r
              target_store_name with
      | Returned _ => Returned VNone
      | Raised e => Raised e
      end.
Proof.
  intros E. exec.
  destruct (stores data_context !! target_store_name) as [store|]; [|discriminate E].
  destruct (isinstance_MetricStore store); [|discriminate E].
  simpl in E. injection E as <- _. simpl.
  destruct (store_validation_result_metrics _ _ r _); simpl;
    rewrite <- ?app_assoc; simpl; rewrite drop_app_length; by split.
Qed.

Lemma store_metrics_passes_its_configuration_witness :
  StoreMetricsAction.__init__ Fixtures.context [("*", [("statistics.success_percent", [])])]
    StoreMetricsAction.default_target_store_name Fixtures.empty_world
  = (Returned {| StoreMetricsAction.data_context := Fixtures.context;
                 StoreMetricsAction._requested_metrics :=
                   [("*", [("statistics.success_percent", [])])];
                 StoreMetricsAction._target_store_name := "metrics_store" |},
     Fixtures.empty_world)
  ∧ calls (StoreMetricsAction._run
             {| StoreMetricsAction.data_context := Fixtures.context;
                StoreMetricsAction._requested_metrics :=
                  [("*", [("statistics.success_percent", [])])];
                StoreMetricsAction._target_store_name := "metrics_store" |}
             (Some Fixtures.passed) (IsValidationResultIdentifier Fixtures.id1) VNone)
          Fixtures.used_world
    = [LogDebug "StoreMetricsAction.run";
       StoreValidationResultMetrics [("*", [("statistics.success_percent", [])])]
         Fixtures.passed "metrics_store"].
Proof.
  assert (I : StoreMetricsAction.__init__ Fixtures.context
                [("*", [("statistics.success_percent", [])])]
                StoreMetricsAction.default_target_store_name Fixtures.empty_world
              = (Returned {| StoreMetricsAction.data_context := Fixtures.context;
                             StoreMetricsAction._requested_metrics :=
                               [("*", [("statistics.success_percent", [])])];
                             StoreMetricsAction._target_store_name := "metrics_store" |},
                 Fixtures.empty_world))
    by (vm_compute; reflexivity).
  split; [exact I|].
  exact (proj1 (store_metrics_passes_its_configuration _ _ _ _ _ _
                  Fixtures.passed Fixtures.id1 VNone Fixtures.used_world I)).
Defined.

(** X5: a documentation-refresh action that was constructed asks
    [build_data_docs] once, for the one identifier it was run with, and for
    the deprecated site list when that was given and not empty, for
    [site_names] otherwise. *)
Theorem update_data_docs_builds_for_one_identifier (data_context : DataContext)
    (site_names target_site_names : option (list string))
    (self : UpdateDataDocsAction.t) (w0 w1 : World)
    (r : ValidationResult) (i : ValidationResultIdentifier) (asset : Value) (w : World) :
  UpdateDataDocsAction.__init__ data_context site_names target_site_names w0
  = (Returned self, w1) ->
  calls (UpdateDataDocsAction._run self (Some r) (IsValidationResultIdentifier i) asset) w
  = [LogDebug "UpdateDataDocsAction.run";
     BuildDataDocs (if truthy target_site_names then target_site_names else site_names)
                   [i]]
  ∧ (truthy target_site_names = true -> truthy site_names = false).
Proof.
  intros E. exec.
  destruct (truthy target_site_names) eqn:T; simpl in E;
    [destruct (truthy site_names) eqn:S; simpl in E; [discriminate E|]|];
    injection E as <- _; simpl;
    (destruct (build_data_docs _ _ _); simpl;
     rewrite <- ?app_assoc; simpl; rewrite drop_app_length; by split).
Qed.

Lemma update_data_docs_builds_for_one_identifier_witness :
  UpdateDataDocsAction.__init__ Fixtures.context None (Some ["production_site"])
    Fixtures.empty_world
  = (Returned {| UpdateDataDocsAction.data_context := Fixtures.context;
                 UpdateDataDocsAction._site_names := Some ["production_site"] |},
     {| heap := ∅;
        trace := [Warn "DeprecationWarning"
                    "target_site_names is deprecated. Please use site_names instead."] |})
  ∧ calls (UpdateDataDocsAction._run
             {| UpdateDataDocsAction.data_context := Fixtures.context;
                UpdateDataDocsAction._site_names := Some ["production_site"] |}
             (Some Fixtures.failed) (IsValidationResultIdentifier Fixtures.id1) VNone)
          Fixtures.empty_world
    = [LogDebug "UpdateDataDocsAction.run";
       BuildDataDocs (Some ["production_site"]) [Fixtures.id1]].
Proof.
  assert (I : UpdateDataDocsAction.__init__ Fixtures.context None
                (Some ["production_site"]) Fixtures.empty_world
              = (Returned {| UpdateDataDocsAction.data_context := Fixtures.context;
                             UpdateDataDocsAction._site_names :=
                               Some ["production_site"] |},
                 {| heap := ∅;
                    trace := [Warn "DeprecationWarning"
                                "target_site_names is deprecated. Please use site_names instead."] |}))
    by reflexivity.
  split; [exact I|].
  exact (proj1 (update_data_docs_builds_for_one_identifier _ _ _ _ _ _
                  Fixtures.failed Fixtures.id1 VNone Fixtures.empty_world I)).
Defined.

(** X6: whatever the notification action sends was rendered from the result
    it was run with: a send to a webhook happens only to the webhook of the
    action, only with a result and a [ValidationResultIdentifier], only under
    the trigger policy, and its query is what the renderer returned for that
    result, the render call coming just before. *)
Theorem slack_sends_only_the_rendered_result {transport : Transport}
    (self : SlackNotificationAction.t) (r : option ValidationResult) (i : Identifier)
    (asset : Value) (w : World) (query : SlackQuery) (url : string) :
  SendSlackNotification query url ∈ calls (SlackNotificationAction._run self r i asset) w ->
  url = SlackNotificationAction.slack_webhook self
  ∧ isinstance_ValidationResultIdentifier i = true
  ∧ ∃ r0, r = Some r0
          ∧ policy_fires (SlackNotificationAction.notify_on self) (success r0)
          ∧ render (SlackNotificationAction.renderer self) r0 = Returned query
          ∧ calls (SlackNotificationAction._run self r i asset) w
            = [LogDebug "SlackNotificationAction.run"; RenderCall r0;
               SendSlackNotification query url].
Proof.
  intros Hin.
  destruct r as [r0|], i as [k|ty]; exec; try (normalise_calls Hin; member Hin; fail).
  destruct (_ || _) eqn:B; [|normalise_calls Hin; member Hin].
  apply policy_condition in B.
  destruct (render _ r0) as [q|e] eqn:R; [|normalise_calls Hin; member Hin].
  destruct (send_slack_notification q _); normalise_calls Hin; member Hin;
    injection Hin as -> ->;
    simpl; rewrite <- ?app_assoc; simpl; rewrite ?drop_app_length;
    (split; [reflexivity|]); (split; [reflexivity|]);
    exists r0; (split; [reflexivity|]); (split; [exact B|]);
    (split; [exact R|reflexivity]).
Qed.

Lemma slack_sends_only_the_rendered_result_witness :
  SendSlackNotification {| query_text := "failed" |} "https://hooks.slack.example/T0"
  ∈ calls (SlackNotificationAction._run (transport := Fixtures.stub_transport)
             (Fixtures.slack "failure") (Some Fixtures.failed)
             (IsValidationResultIdentifier Fixtures.id1) VNone)
          Fixtures.empty_world
  ∧ "https://hooks.slack.example/T0"
    = SlackNotificationAction.slack_webhook (Fixtures.slack "failure").
Proof.
  assert (Hin : SendSlackNotification {| query_text := "failed" |}
                  "https://hooks.slack.example/T0"
                ∈ calls (SlackNotificationAction._run (transport := Fixtures.stub_transport)
                           (Fixtures.slack "failure") (Some Fixtures.failed)
                           (IsValidationResultIdentifier Fixtures.id1) VNone)
                        Fixtures.empty_world).
  { unfold calls. simpl.
    apply list_elem_of_further, list_elem_of_further, list_elem_of_here. }
  split; [exact Hin|].
  exact (proj1 (slack_sends_only_the_rendered_result
                  (transport := Fixtures.stub_transport) _ _ _ _ _ _ _ Hin)).
Defined.

(** X7: the constructor of the notification action does not check
    [notify_on]: it keeps any value, and an action built with a value other
    than ["all"], ["success"] and ["failure"] never reaches the renderer or the
    webhook; its [_run] returns [None], or raises the [TypeError] of the guard. *)
Theorem unrecognised_notify_on_never_notifies
    {instantiation : Instantiation} {transport : Transport}
    (data_context : DataContext) (renderer_config : gmap string string)
    (slack_webhook : option string) (notify_on : string)
    (self : SlackNotificationAction.t) :
  notify_on ≠ "all" -> notify_on ≠ "success" -> notify_on ≠ "failure" ->
  SlackNotificationAction.__init__ data_context renderer_config slack_webhook notify_on
  = Built self ->
  SlackNotificationAction.notify_on self = notify_on
  ∧ ∀ r i asset w,
      no_collaborator_touched (calls (SlackNotificationAction._run self r i asset) w) = true
      ∧ (result_of (SlackNotificationAction._run self r i asset) w = Returned VNone
         ∨ ∃ ty, i = OtherObject ty
                 ∧ result_of (SlackNotificationAction._run self r i asset) w
                   = Raised (TypeError (NotValidationResultIdentifier
                                          "validation_result_suite_id" ty))).
Proof.
  intros Hall Hsuccess Hfailure E.
  assert (N : SlackNotificationAction.notify_on self = notify_on).
  { unfold SlackNotificationAction.__init__ in E.
    destruct (instantiate_class_from_config _ _ _) as [[rd|]|]; try discriminate E;
      destruct (renderer_config !! "module_name"); try discriminate E;
      [|destruct (renderer_config !! "class_name"); discriminate E].
    destruct slack_webhook as [url|]; [|discriminate E].
    destruct (truthy_webhook (Some url)); [|discriminate E].
    by injection E as <-. }
  split; [exact N|]. intros r i asset w.
  assert (B : String.eqb (SlackNotificationAction.notify_on self) "all"
              || String.eqb (SlackNotificationAction.notify_on self) "success"
                 && success (default Fixtures.passed r)
              || String.eqb (SlackNotificationAction.notify_on self) "failure"
                 && negb (success (default Fixtures.passed r)) = false).
  { rewrite N. apply not_true_is_false. rewrite policy_condition.
    unfold policy_fires. tauto. }
  destruct r as [r0|], i as [k|ty]; exec; simpl in B; rewrite ?B; simpl;
    rewrite ?drop_app_length; (split; [reflexivity|]); eauto.
Qed.

Lemma unrecognised_notify_on_never_notifies_witness :
  "always" ≠ "all" ∧ "always" ≠ "success" ∧ "always" ≠ "failure"
  ∧ SlackNotificationAction.__init__ (instantiation := Fixtures.stub_instantiation)
      Fixtures.context Fixtures.renderer_config (Some "https://hooks.slack.example/T0")
      "always"
    = Built (Fixtures.slack "always")
  ∧ result_of (SlackNotificationAction._run (transport := Fixtures.stub_transport)
                 (Fixtures.slack "always") (Some Fixtures.failed)
                 (IsValidationResultIdentifier Fixtures.id1) VNone)
              Fixtures.empty_world
    = Returned VNone.
Proof.
  assert (I : SlackNotificationAction.__init__ (instantiation := Fixtures.stub_instantiation)
                Fixtures.context Fixtures.renderer_config
                (Some "https://hooks.slack.example/T0") "always"
              = Built (Fixtures.slack "always"))
    by (vm_compute; reflexivity).
  split; [discriminate|]. split; [discriminate|]. split; [discriminate|].
  split; [exact I|].
  pose proof (proj2 (unrecognised_notify_on_never_notifies
                       (instantiation := Fixtures.stub_instantiation)
                       (transport := Fixtures.stub_transport)
                       Fixtures.context Fixtures.renderer_config
                       (Some "https://hooks.slack.example/T0") "always"
                       (Fixtures.slack "always")
                       ltac:(discriminate) ltac:(discriminate) ltac:(discriminate) I)
                (Some Fixtures.failed) (IsValidationResultIdentifier Fixtures.id1)
                VNone Fixtures.empty_world) as [_ [R|[ty [D _]]]];
    [exact R|discriminate D].
Defined.

(** X8: the constructor of the notification action succeeds exactly when
    the renderer could be instantiated to a truthy object, the renderer config
    has a ["module_name"] entry, and the webhook is neither [None] nor empty;
    [notify_on] plays no part.  The action then holds the instantiated
    renderer, the webhook and [notify_on] as given. *)
Theorem slack_init_succeeds_iff {instantiation : Instantiation}
    (data_context : DataContext) (renderer_config : gmap string string)
    (slack_webhook : option string) (notify_on : string) :
  ((∃ self, SlackNotificationAction.__init__ data_context renderer_config slack_webhook
              notify_on = Built self)
   ↔ (∃ rd module_name,
        instantiate_class_from_config renderer_config ∅ ∅ = Returned (Some rd)
        ∧ renderer_config !! "module_name" = Some module_name
        ∧ truthy_webhook slack_webhook = true))
  ∧ (∀ self, SlackNotificationAction.__init__ data_context renderer_config slack_webhook
               notify_on = Built self ->
       SlackNotificationAction.data_context self = data_context
       ∧ instantiate_class_from_config renderer_config ∅ ∅
         = Returned (Some (SlackNotificationAction.renderer self))
       ∧ slack_webhook = Some (SlackNotificationAction.slack_webhook self)
       ∧ SlackNotificationAction.notify_on self = notify_on).
Proof.
  unfold SlackNotificationAction.__init__.
  destruct (instantiate_class_from_config renderer_config ∅ ∅) as [[rd|]|e];
    destruct (renderer_config !! "module_name") as [m|];
    try destruct (renderer_config !! "class_name") as [c|];
    destruct slack_webhook as [[|ch url]|]; simpl;
    (split; [split; [intros [self E]; try discriminate E; eauto
                    |intros (rd' & m' & E1 & E2 & E3);
                     try discriminate E1; try discriminate E2; try discriminate E3;
                     eauto]
            |intros self E; try discriminate E; by injection E as <-]).
Qed.

Lemma slack_init_succeeds_iff_witness :
  SlackNotificationAction.__init__ (instantiation := Fixtures.stub_instantiation)
    Fixtures.context Fixtures.renderer_config (Some "https://hooks.slack.example/T0")
    SlackNotificationAction.default_notify_on
  = Built (Fixtures.slack "all")
  ∧ truthy_webhook (Some "https://hooks.slack.example/T0") = true.
Proof.
  assert (I : SlackNotificationAction.__init__ (instantiation := Fixtures.stub_instantiation)
                Fixtures.context Fixtures.renderer_config
                (Some "https://hooks.slack.example/T0")
                SlackNotificationAction.default_notify_on
              = Built (Fixtures.slack "all"))
    by (vm_compute; reflexivity).
  split; [exact I|].
  destruct (proj1 (proj1 (slack_init_succeeds_iff
                            (instantiation := Fixtures.stub_instantiation)
                            Fixtures.context Fixtures.renderer_config
                            (Some "https://hooks.slack.example/T0")
                            SlackNotificationAction.default_notify_on))
              (ex_intro _ (Fixtures.slack "all") I)) as (rd & m & _ & _ & T).
  exact T.
Defined.

(** X9: which error the constructor of the notification action ends with.
    An exception of [instantiate_class_from_config] passes through.  A config
    without ["module_name"] gives [KeyError], even when the renderer was
    instantiated.  A falsy renderer gives [ClassInstantiationError] with the
    module and class names of the config and no package name, before the
    webhook is looked at.  Only with a truthy renderer does a missing or empty
    webhook give [AssertionError]. *)
Theorem slack_init_errors {instantiation : Instantiation}
    (data_context : DataContext) (renderer_config : gmap string string)
    (slack_webhook : option string) (notify_on : string) :
  let init := SlackNotificationAction.__init__ data_context renderer_config slack_webhook
                notify_on in
  (∀ e, instantiate_class_from_config renderer_config ∅ ∅ = Raised e ->
     init = Failed (Propagated e))
  ∧ (∀ answer, instantiate_class_from_config renderer_config ∅ ∅ = Returned answer ->
       renderer_config !! "module_name" = None ->
       init = Failed (Propagated (KeyError "module_name")))
  ∧ (∀ module_name class_name,
       instantiate_class_from_config renderer_config ∅ ∅ = Returned None ->
       renderer_config !! "module_name" = Some module_name ->
       renderer_config !! "class_name" = Some class_name ->
       init = Failed (ClassInstantiationError module_name None class_name))
  ∧ (∀ module_name,
       instantiate_class_from_config renderer_config ∅ ∅ = Returned None ->
       renderer_config !! "module_name" = Some module_name ->
       renderer_config !! "class_name" = None ->
       init = Failed (Propagated (KeyError "class_name")))
  ∧ (∀ rd module_name,
       instantiate_class_from_config renderer_config ∅ ∅ = Returned (Some rd) ->
       renderer_config !! "module_name" = Some module_name ->
       truthy_webhook slack_webhook = false ->
       init = Failed (AssertionError "No Slack webhook found in action config.")).
Proof.
  intros init. subst init. unfold SlackNotificationAction.__init__.
  split; [intros e ->; reflexivity|].
  split; [intros answer -> ->; reflexivity|].
  split; [intros m c -> -> ->; reflexivity|].
  split; [intros m -> -> ->; reflexivity|].
  intros rd m -> -> T. destruct slack_webhook as [url|]; [|reflexivity].
  by rewrite T.
Qed.

Lemma slack_init_errors_witness :
  (instantiate_class_from_config (Instantiation := Fixtures.stub_instantiation)
     (<["module_name" := "my_module"]> (<["class_name" := "MyRenderer"]> ∅)) ∅ ∅
   = Returned None
   ∧ SlackNotificationAction.__init__ (instantiation := Fixtures.stub_instantiation)
       Fixtures.context
       (<["module_name" := "my_module"]> (<["class_name" := "MyRenderer"]> ∅))
       None "all"
     = Failed (ClassInstantiationError "my_module" None "MyRenderer"))
  ∧ (truthy_webhook (Some "") = false
     ∧ SlackNotificationAction.__init__ (instantiation := Fixtures.stub_instantiation)
         Fixtures.context Fixtures.renderer_config (Some "") "all"
       = Failed (AssertionError "No Slack webhook found in action config.")).
Proof.
  assert (F : instantiate_class_from_config (Instantiation := Fixtures.stub_instantiation)
                (<["module_name" := "my_module"]> (<["class_name" := "MyRenderer"]> ∅))
                ∅ ∅
              = Returned None)
    by (vm_compute; reflexivity).
  assert (G : instantiate_class_from_config (Instantiation := Fixtures.stub_instantiation)
                Fixtures.renderer_config ∅ ∅
              = Returned (Some Fixtures.stub_renderer))
    by (vm_compute; reflexivity).
  split; (split; [first [exact F|reflexivity]|]).
  - apply (proj1 (proj2 (proj2 (slack_init_errors
                                   (instantiation := Fixtures.stub_instantiation)
                                   Fixtures.context
                                   (<["module_name" := "my_module"]>
                                      (<["class_name" := "MyRenderer"]> ∅))
                                   None "all"))));
      [exact F|vm_compute; reflexivity|vm_compute; reflexivity].
  - apply (proj2 (proj2 (proj2 (proj2 (slack_init_errors
                                          (instantiation := Fixtures.stub_instantiation)
                                          Fixtures.context Fixtures.renderer_config
                                          (Some "") "all"))))
             Fixtures.stub_renderer
             "great_expectations.render.renderer.slack_renderer");
      [exact G|vm_compute; reflexivity|reflexivity].
Defined.

(** X10: two runs of the result-persistence action, one after the other, on
    the store as the specification describes it: the result of the second run
    is stored at its identifier; the result of the first stays at its own
    identifier when the two identifiers differ, and is replaced when they are
    the same, as if only the second run had happened. *)
Theorem store_validation_result_twice {transport : Transport}
    (self : StoreValidationResultAction.t) (r1 r2 : ValidationResult)
    (i1 i2 : ValidationResultIdentifier) (asset : Value) (w : World) :
  let target := StoreValidationResultAction.target_store self in
  let first := run (StoreValidationResult self) (Some r1)
                   (IsValidationResultIdentifier i1) asset [] in
  let second := run (StoreValidationResult self) (Some r2)
                    (IsValidationResultIdentifier i2) asset [] in
  let after := world_after second (world_after first w) in
  Store_get target i2 after = Some r2
  ∧ (vri_key i1 ≠ vri_key i2 -> Store_get target i1 after = Some r1)
  ∧ (vri_key i1 = vri_key i2 ->
       contents target after = contents target (world_after second w))
  ∧ filter (fun e => is_store_set e = true) (drop (length (trace w)) (trace after))
    = [StoreSet target i1 r1; StoreSet target i2 r2].
Proof.
  intros target first second after. subst target first second after. exec.
  unfold Store_get, contents. simpl.
  rewrite !lookup_insert_eq. simpl.
  split; [by rewrite lookup_insert_eq|].
  split; [intros Hne; by rewrite lookup_insert_ne, lookup_insert_eq by done|].
  split; [intros ->; by rewrite insert_insert_eq|].
  rewrite <- ?app_assoc. simpl. rewrite ?drop_app_length. reflexivity.
Qed.

Lemma store_validation_result_twice_witness :
  vri_key Fixtures.id1 ≠ vri_key Fixtures.id2
  ∧ Store_get Fixtures.validations Fixtures.id1
      (world_after (run (transport := Fixtures.stub_transport)
                      (StoreValidationResult Fixtures.store_results)
                      (Some Fixtures.failed) (IsValidationResultIdentifier Fixtures.id2)
                      VNone [])
         (world_after (run (transport := Fixtures.stub_transport)
                         (StoreValidationResult Fixtures.store_results)
                         (Some Fixtures.passed) (IsValidationResultIdentifier Fixtures.id1)
                         VNone [])
            Fixtures.used_world))
    = Some Fixtures.passed.
Proof.
  assert (D : vri_key Fixtures.id1 ≠ vri_key Fixtures.id2) by discriminate.
  split; [exact D|].
  exact (proj1 (proj2 (store_validation_result_twice
                         (transport := Fixtures.stub_transport)
                         Fixtures.store_results Fixtures.passed Fixtures.failed
                         Fixtures.id1 Fixtures.id2 VNone Fixtures.used_world)) D).
Defined.
